(** * storagets: the [useStorageTS] hook

    A shallow embedding of [packages/storagets/src/use-storagets.ts] and of
    the part of its host (React state, [window.localStorage], [JSON],
    [console]) that the hook touches, followed by the properties of the
    hook that the specification states.

    Conventions of the embedding:
    - a JavaScript value is a term of [value]; an object is a finite map
      from property names to values ([gmap string value]), so two objects
      are equal exactly when they are deep-equal;
    - a call that may throw returns a [completion];
    - the hook's code runs in the monad [Eff] of state ([World]) and
      exceptions; a thrown exception keeps the effects performed before it;
    - [JSON.parse] and [JSON.stringify] belong to the host and are taken
      through the interface [JSON]; [RefJSON] is an executable instance
      used to run the hook on concrete inputs. *)

From stdpp Require Import gmap strings list fin_maps pretty.
From Stdlib Require Import ZArith String Ascii.

Local Set Warnings "-register-all".
Local Open Scope string_scope.

(** ** JavaScript values *)

(** Numbers are exact integers, plus [NaN] (what [undefined + 1] gives). *)
Inductive number :=
| Int (z : Z)
| NaN.

Inductive value :=
| VUndefined
| VNull
| VBool (b : bool)
| VNumber (n : number)
| VBigInt (z : Z)
| VString (s : string)
| VArray (elems : list value)
| VObject (props : gmap string value).

(** A thrown JavaScript error: its class name and its message. *)
Record exn := Exn { exn_name : string; exn_message : string }.

Definition SyntaxError (msg : string) : exn := Exn "SyntaxError" msg.
Definition TypeError (msg : string) : exn := Exn "TypeError" msg.
Definition QuotaExceededError : exn :=
  Exn "QuotaExceededError" "The quota has been exceeded.".
Definition SecurityError : exn :=
  Exn "SecurityError" "The operation is insecure.".

Inductive completion (A : Type) :=
| Normal (a : A)
| Throw (e : exn).
Arguments Normal {A} a.
Arguments Throw {A} e.

(** [a ?? b] *)
Definition nullish_coalesce (a b : value) : value :=
  match a with
  | VUndefined | VNull => b
  | _ => a
  end.

(** [v !== undefined] *)
Definition is_undefined (v : value) : bool :=
  match v with
  | VUndefined => true
  | _ => false
  end.

(** The double quote character. *)
Definition dquote : ascii := ascii_of_nat 34.

(** A text written with apostrophes where it has double quotes. *)
Fixpoint json_text (s : string) : string :=
  match s with
  | EmptyString => EmptyString
  | String c s' =>
      String (if Ascii.eqb c (ascii_of_nat 39) then dquote else c) (json_text s')
  end.

(** The own enumerable properties that an object spread [...v] copies:
    nothing for [null], [undefined] and the other primitives, the fields of
    an object, the indexed elements of an array, the indexed characters of
    a string. *)
Definition index_key (i : nat) : string := pretty i.

Fixpoint string_chars (s : string) : list value :=
  match s with
  | EmptyString => []
  | String c s' => VString (String c EmptyString) :: string_chars s'
  end.

Definition own_properties (v : value) : gmap string value :=
  match v with
  | VObject props => props
  | VArray elems => list_to_map (imap (fun i x => (index_key i, x)) elems)
  | VString s => list_to_map (imap (fun i x => (index_key i, x)) (string_chars s))
  | _ => ∅
  end.

(** [{ ...a, ...b }]: the properties of [b] win. *)
Definition spread2 (a b : value) : value :=
  VObject (own_properties b ∪ own_properties a).

(** ** The host *)

(** [window.localStorage]: string keys, string values, the room the
    user agent grants ([None]: no limit), and whether the user agent
    denies the page the access to its storage. *)
Record Storage := mkStorageWith {
  items : gmap string string;
  quota : option nat;
  access_denied : bool
}.

(** A storage that the page may use. *)
Definition mkStorage (items : gmap string string) (quota : option nat) : Storage :=
  mkStorageWith items quota false.

Definition storage_size (m : gmap string string) : nat :=
  map_fold (fun k v acc => String.length k + String.length v + acc) 0 m.

(** Reading the property [window.localStorage] throws a [SecurityError]
    when the access is denied. *)
Definition storage_access (s : Storage) : completion unit :=
  if access_denied s then Throw SecurityError else Normal tt.

(** [window.localStorage.getItem(key)]: the text under the key, or
    [null] ([None]). *)
Definition getItem (s : Storage) (key : string) : completion (option string) :=
  match storage_access s with
  | Normal _ => Normal (items s !! key)
  | Throw e => Throw e
  end.

(** [window.localStorage.setItem(key, text)] throws
    [QuotaExceededError] when the new value cannot be stored, and then
    stores nothing. *)
Definition setItem (s : Storage) (key text : string) : completion Storage :=
  match storage_access s with
  | Throw e => Throw e
  | Normal _ =>
      let items' := <[key := text]> (items s) in
      match quota s with
      | Some q =>
          if (storage_size items' <=? q)%nat
          then Normal (mkStorageWith items' (quota s) (access_denied s))
          else Throw QuotaExceededError
      | None => Normal (mkStorageWith items' (quota s) (access_denied s))
      end
  end.

(** [JSON.parse] and [JSON.stringify]. [JSON.stringify] returns
    [undefined] ([None]) on some inputs and throws on others;
    [JSON.parse] throws a [SyntaxError] on the empty text. *)
Class JSON := {
  JSON_parse : string -> completion value;
  JSON_stringify : value -> completion (option string);
  JSON_parse_empty : exists e, JSON_parse "" = Throw e
}.

(** What the hook can observe and change: whether [window] is defined,
    the storage, the React state cell of the hook ([useState<T | null>]),
    and the lines written by [console.error]. *)
Record World := mkWorld {
  window : bool;
  localStorage : Storage;
  state : value;
  console : list (string * exn)
}.

(** ** State and exceptions *)

Definition Eff (A : Type) : Type := World -> World * completion A.

Definition ret {A} (a : A) : Eff A := fun w => (w, Normal a).

Definition bind {A B} (m : Eff A) (k : A -> Eff B) : Eff B :=
  fun w =>
    match m w with
    | (w', Normal a) => k a w'
    | (w', Throw e) => (w', Throw e)
    end.

Definition lift {A} (c : completion A) : Eff A := fun w => (w, c).

(** [try { body } catch (error) { handler(error) }] *)
Definition try_catch {A} (body : Eff A) (handler : exn -> Eff A) : Eff A :=
  fun w =>
    match body w with
    | (w', Normal a) => (w', Normal a)
    | (w', Throw e) => handler e w'
    end.

Declare Scope eff_scope.
Delimit Scope eff_scope with eff.
Notation "'let*' x ':=' m 'in' k" := (bind m (fun x => k))
  (at level 10, x name, m at level 100, k at level 200) : eff_scope.
Notation "m ';;' k" := (bind m (fun _ => k))
  (at level 100, k at level 200, right associativity) : eff_scope.

Definition typeof_window_undefined : Eff bool :=
  fun w => (w, Normal (negb (window w))).

Definition read_state : Eff value :=
  fun w => (w, Normal (state w)).

Definition setState (v : value) : Eff unit :=
  fun w => (mkWorld (window w) (localStorage w) v (console w), Normal tt).

Definition console_error (msg : string) (error : exn) : Eff unit :=
  fun w =>
    (mkWorld (window w) (localStorage w) (state w) (console w ++ [(msg, error)]),
     Normal tt).

(** Reading [window.localStorage], as the first step of a call of one
    of its methods. *)
Definition window_localStorage : Eff unit :=
  fun w => (w, storage_access (localStorage w)).

Definition localStorage_getItem (key : string) : Eff (option string) :=
  fun w => (w, getItem (localStorage w) key).

(** The argument of [setItem] is converted to a string: [undefined]
    becomes the text [undefined]. *)
Definition to_text (t : option string) : string :=
  match t with
  | Some s => s
  | None => "undefined"
  end.

Definition localStorage_setItem (key text : string) : Eff unit :=
  fun w =>
    match setItem (localStorage w) key text with
    | Normal s' => (mkWorld (window w) s' (state w) (console w), Normal tt)
    | Throw e => (w, Throw e)
    end.

(** ** The hook *)

(** [StorageValidator<T>] of [types.ts]: a function of the data that
    returns a value or throws. *)
Definition StorageValidator := value -> completion value.

(** [updateOrValue : T | ((prev: T) => T)] *)
Inductive update_arg :=
| Literal (v : value)
| Updater (f : value -> completion value).

(** [options?: { merge?: boolean }] *)
Record options := { merge : option bool }.

(** [options?.merge], as a condition *)
Definition merge_set (opts : option options) : bool :=
  match opts with
  | Some {| merge := Some true |} => true
  | _ => false
  end.

Section Hook.
Context `{!JSON}.
Variable key : string.
Variable defaultValue : value.
Variable validatorFn : option StorageValidator.

Local Open Scope eff_scope.

Definition validator (v : value) : Eff value :=
  match validatorFn with
  | Some f =>
      try_catch
        (let* validatedValue := lift (f v) in
         ret validatedValue)
        (fun error =>
           console_error "Validation failed" error;;
           ret VUndefined)
  | None => ret v
  end.

Definition setValue (updateOrValue : update_arg) (opts : option options)
  : Eff unit :=
  let* no_window := typeof_window_undefined in
  if no_window then ret tt else
  let* st := read_state in
  let* v :=
    match updateOrValue with
    | Updater f => lift (f (nullish_coalesce st defaultValue))
    | Literal v => ret v
    end in
  let finalValue := if merge_set opts then spread2 st v else v in
  let* validatedValue := validator finalValue in
  if is_undefined validatedValue then ret tt else
  setState validatedValue;;
  (* [window.localStorage.setItem] is evaluated before its arguments *)
  window_localStorage;;
  let* text := lift (JSON_stringify validatedValue) in
  localStorage_setItem key (to_text text).

(** The body of the [useEffect] of the hook, run after the first render
    and after each change of [key]. *)
Definition effect : Eff unit :=
  let* no_window := typeof_window_undefined in
  if no_window then ret tt else
  let* stored := localStorage_getItem key in
  match stored with
  | Some text =>
      if String.eqb text "" then ret tt else
      try_catch
        (let* parsed := lift (JSON_parse text) in
         let* validatedValue := validator parsed in
         if is_undefined validatedValue then ret tt
         else setState validatedValue)
        (fun error =>
           console_error "Failed to parse value from localStorage" error)
  | None => ret tt
  end.

(** One render: [return [state ?? defaultValue, setValue]]. *)
Definition useStorageTS (w : World)
  : value * (update_arg -> option options -> Eff unit) :=
  (nullish_coalesce (state w) defaultValue, setValue).

(** The state that a render exposes to the caller. *)
Definition exposed (w : World) : value := fst (useStorageTS w).
End Hook.

(** A hook instance at its first render: [useState(null)]. *)
Definition mount (has_window : bool) (s : Storage) : World :=
  mkWorld has_window s VNull [].

(** ** A reference JSON

    An executable [JSON] for the values of the model. Numbers are the
    integers of the model: the parser rejects a fraction or an exponent.
    Strings are byte strings: the parser rejects a [\u] escape above
    [00ff]. The members of an object are written in the key order of the
    finite map; JavaScript writes them in insertion order, which a map
    does not record, so the two texts agree for objects of one member and
    parse to the same object in all cases. *)
Module RefJSON.

Local Open Scope char_scope.

Definition hex_digit (n : nat) : ascii :=
  match n with
  | 0 => "0" | 1 => "1" | 2 => "2" | 3 => "3" | 4 => "4" | 5 => "5"
  | 6 => "6" | 7 => "7" | 8 => "8" | 9 => "9" | 10 => "a" | 11 => "b"
  | 12 => "c" | 13 => "d" | 14 => "e" | _ => "f"
  end.

Definition escape_char (c : ascii) : string :=
  let n := nat_of_ascii c in
  if Ascii.eqb c dquote then String "\" (String dquote EmptyString)
  else if Ascii.eqb c "\" then String "\" (String "\" EmptyString)
  else if Nat.eqb n 8 then String "\" (String "b" EmptyString)
  else if Nat.eqb n 9 then String "\" (String "t" EmptyString)
  else if Nat.eqb n 10 then String "\" (String "n" EmptyString)
  else if Nat.eqb n 12 then String "\" (String "f" EmptyString)
  else if Nat.eqb n 13 then String "\" (String "r" EmptyString)
  else if Nat.ltb n 32 then
    String "\" (String "u" (String "0" (String "0"
      (String (hex_digit (n / 16)) (String (hex_digit (n mod 16)) EmptyString)))))
  else String c EmptyString.

Fixpoint escape (s : string) : string :=
  match s with
  | EmptyString => EmptyString
  | String c s' => (escape_char c ++ escape s')%string
  end.

Definition quote (s : string) : string :=
  String dquote (escape s ++ String dquote EmptyString).

Fixpoint join (sep : string) (parts : list string) : string :=
  match parts with
  | [] => EmptyString
  | [p] => p
  | p :: ps => (p ++ sep ++ join sep ps)%string
  end.

(** The texts of the elements of an array, left to right; an element that
    serializes to [undefined] is written [null]. *)
Fixpoint array_parts (cs : list (completion (option string)))
  : completion (list string) :=
  match cs with
  | [] => Normal []
  | Throw e :: _ => Throw e
  | Normal t :: cs' =>
      match array_parts cs' with
      | Normal ps => Normal (default "null"%string t :: ps)
      | Throw e => Throw e
      end
  end.

(** The texts of the members of an object; a member whose value
    serializes to [undefined] is left out. *)
Fixpoint object_parts (cs : list (string * completion (option string)))
  : completion (list string) :=
  match cs with
  | [] => Normal []
  | (_, Throw e) :: _ => Throw e
  | (k, Normal t) :: cs' =>
      match object_parts cs' with
      | Normal ps =>
          Normal match t with
                 | Some s => (quote k ++ ":" ++ s)%string :: ps
                 | None => ps
                 end
      | Throw e => Throw e
      end
  end.

Fixpoint stringify (v : value) : completion (option string) :=
  match v with
  | VUndefined => Normal None
  | VNull => Normal (Some "null"%string)
  | VBool true => Normal (Some "true"%string)
  | VBool false => Normal (Some "false"%string)
  | VNumber (Int z) => Normal (Some (pretty z))
  | VNumber NaN => Normal (Some "null"%string)
  | VBigInt _ => Throw (TypeError "Do not know how to serialize a BigInt")
  | VString s => Normal (Some (quote s))
  | VArray elems =>
      match array_parts (map stringify elems) with
      | Normal ps => Normal (Some ("[" ++ join "," ps ++ "]")%string)
      | Throw e => Throw e
      end
  | VObject props =>
      match object_parts (map_to_list (stringify <$> props)) with
      | Normal ps => Normal (Some ("{" ++ join "," ps ++ "}")%string)
      | Throw e => Throw e
      end
  end.

(** *** Parsing *)

Definition is_ws (c : ascii) : bool :=
  let n := nat_of_ascii c in
  Nat.eqb n 32 || Nat.eqb n 9 || Nat.eqb n 10 || Nat.eqb n 13.

Fixpoint skip_ws (s : list ascii) : list ascii :=
  match s with
  | c :: s' => if is_ws c then skip_ws s' else s
  | [] => []
  end.

Definition digit_val (c : ascii) : option nat :=
  let n := nat_of_ascii c in
  if Nat.leb 48 n && Nat.leb n 57 then Some (n - 48) else None.

Definition hex_val (c : ascii) : option nat :=
  let n := nat_of_ascii c in
  if Nat.leb 48 n && Nat.leb n 57 then Some (n - 48)
  else if Nat.leb 97 n && Nat.leb n 102 then Some (n - 87)
  else if Nat.leb 65 n && Nat.leb n 70 then Some (n - 55)
  else None.

(** The characters of a string literal after its opening quote, and the
    rest of the input after its closing quote. *)
Fixpoint parse_chars (s : list ascii) : option (string * list ascii) :=
  match s with
  | [] => None
  | c :: r =>
      if Ascii.eqb c dquote then Some (EmptyString, r)
      else if Ascii.eqb c "\" then
        match r with
        | e :: r' =>
            let continue (d : ascii) (rest : option (string * list ascii)) :=
              match rest with
              | Some (str, r'') => Some (String d str, r'')
              | None => None
              end in
            if Ascii.eqb e dquote then continue dquote (parse_chars r')
            else if Ascii.eqb e "\" then continue "\" (parse_chars r')
            else if Ascii.eqb e "/" then continue "/" (parse_chars r')
            else if Ascii.eqb e "b" then continue (ascii_of_nat 8) (parse_chars r')
            else if Ascii.eqb e "f" then continue (ascii_of_nat 12) (parse_chars r')
            else if Ascii.eqb e "n" then continue (ascii_of_nat 10) (parse_chars r')
            else if Ascii.eqb e "r" then continue (ascii_of_nat 13) (parse_chars r')
            else if Ascii.eqb e "t" then continue (ascii_of_nat 9) (parse_chars r')
            else if Ascii.eqb e "u" then
              match r' with
              | h1 :: h2 :: h3 :: h4 :: r'' =>
                  match hex_val h1, hex_val h2, hex_val h3, hex_val h4 with
                  | Some 0, Some 0, Some a, Some b =>
                      continue (ascii_of_nat (16 * a + b)) (parse_chars r'')
                  | _, _, _, _ => None
                  end
              | _ => None
              end
            else None
        | [] => None
        end
      else if Nat.ltb (nat_of_ascii c) 32 then None
      else
        match parse_chars r with
        | Some (str, r') => Some (String c str, r')
        | None => None
        end
  end.

(** The digits at the head of the input, as a number, and the rest. *)
Fixpoint parse_digits (acc : Z) (s : list ascii) : Z * list ascii :=
  match s with
  | c :: r =>
      match digit_val c with
      | Some d => parse_digits (10 * acc + Z.of_nat d) r
      | None => (acc, s)
      end
  | [] => (acc, [])
  end.

(** An integer: digits without a leading zero, not followed by a fraction
    or an exponent. *)
Definition parse_int (s : list ascii) : option (Z * list ascii) :=
  match s with
  | c :: r =>
      match digit_val c with
      | Some d =>
          let '(n, r') := if Nat.eqb d 0 then (0%Z, r) else parse_digits (Z.of_nat d) r in
          match r' with
          | c' :: _ =>
              if Ascii.eqb c' "." || Ascii.eqb c' "e" || Ascii.eqb c' "E"
                 || match digit_val c' with Some _ => true | None => false end
              then None else Some (n, r')
          | [] => Some (n, r')
          end
      | None => None
      end
  | [] => None
  end.

Definition parse_number (s : list ascii) : option (value * list ascii) :=
  match s with
  | c :: r =>
      if Ascii.eqb c "-" then
        match parse_int r with
        | Some (n, r') => Some (VNumber (Int (- n)), r')
        | None => None
        end
      else
        match parse_int s with
        | Some (n, r') => Some (VNumber (Int n), r')
        | None => None
        end
  | [] => None
  end.

Definition parse_literal (s : list ascii) : option (value * list ascii) :=
  match s with
  | "n" :: "u" :: "l" :: "l" :: r => Some (VNull, r)
  | "t" :: "r" :: "u" :: "e" :: r => Some (VBool true, r)
  | "f" :: "a" :: "l" :: "s" :: "e" :: r => Some (VBool false, r)
  | _ => parse_number s
  end.

(** A value, the elements of an array after the first, and the members of
    an object after the first; [fuel] bounds the nesting of the calls. *)
Fixpoint parse_value (fuel : nat) (s : list ascii) : option (value * list ascii) :=
  match fuel with
  | 0 => None
  | S fuel' =>
      match skip_ws s with
      | c :: r =>
          if Ascii.eqb c dquote then
            match parse_chars r with
            | Some (str, r') => Some (VString str, r')
            | None => None
            end
          else if Ascii.eqb c "[" then
            match skip_ws r with
            | c' :: r' =>
                if Ascii.eqb c' "]" then Some (VArray [], r')
                else parse_elements fuel' [] (skip_ws r)
            | [] => None
            end
          else if Ascii.eqb c "{" then
            match skip_ws r with
            | c' :: r' =>
                if Ascii.eqb c' "}" then Some (VObject ∅, r')
                else parse_members fuel' ∅ (skip_ws r)
            | [] => None
            end
          else parse_literal (c :: r)
      | [] => None
      end
  end
with parse_elements (fuel : nat) (acc : list value) (s : list ascii)
  : option (value * list ascii) :=
  match fuel with
  | 0 => None
  | S fuel' =>
      match parse_value fuel' s with
      | Some (v, r) =>
          match skip_ws r with
          | c :: r' =>
              if Ascii.eqb c "," then parse_elements fuel' (acc ++ [v]) r'
              else if Ascii.eqb c "]" then Some (VArray (acc ++ [v]), r')
              else None
          | [] => None
          end
      | None => None
      end
  end
with parse_members (fuel : nat) (acc : gmap string value) (s : list ascii)
  : option (value * list ascii) :=
  match fuel with
  | 0 => None
  | S fuel' =>
      match skip_ws s with
      | q :: r =>
          if Ascii.eqb q dquote then
            match parse_chars r with
            | Some (k, r1) =>
                match skip_ws r1 with
                | c1 :: r2 =>
                    if Ascii.eqb c1 ":" then
                      match parse_value fuel' r2 with
                      | Some (v, r3) =>
                          match skip_ws r3 with
                          | c :: r4 =>
                              if Ascii.eqb c "," then
                                parse_members fuel' (<[k := v]> acc) r4
                              else if Ascii.eqb c "}" then
                                Some (VObject (<[k := v]> acc), r4)
                              else None
                          | [] => None
                          end
                      | None => None
                      end
                    else None
                | [] => None
                end
            | None => None
            end
          else None
      | [] => None
      end
  end.

Definition parse (text : string) : completion value :=
  let s := list_ascii_of_string text in
  match parse_value (2 * List.length s + 2) s with
  | Some (v, r) =>
      match skip_ws r with
      | [] => Normal v
      | _ :: _ => Throw (SyntaxError "Unexpected non-whitespace character after JSON")
      end
  | None => Throw (SyntaxError "Unexpected token or end of JSON input")
  end.

End RefJSON.

#[export] Instance ref_json : JSON := {|
  JSON_parse := RefJSON.parse;
  JSON_stringify := RefJSON.stringify;
  JSON_parse_empty := ex_intro _ _ eq_refl
|}.

(** ** Vocabulary of the statements *)

(** Lines 34 to 43 of [setValue] as a function of the state that the call
    observes: the value handed to the validator. *)
Definition final_value (defaultValue st : value) (updateOrValue : update_arg)
    (opts : option options) : completion value :=
  match updateOrValue with
  | Updater f =>
      match f (nullish_coalesce st defaultValue) with
      | Normal v => Normal (if merge_set opts then spread2 st v else v)
      | Throw e => Throw e
      end
  | Literal v => Normal (if merge_set opts then spread2 st v else v)
  end.

(** Lines 47 and 48 of [setValue]: what an accepted update does with the
    validated value. *)
Definition commit `{!JSON} (key : string) (validatedValue : value) : Eff unit :=
  (setState validatedValue;;
   window_localStorage;;
   let* text := lift (JSON_stringify validatedValue) in
   localStorage_setItem key (to_text text))%eff.

(** What [validator] returns, without its log line. *)
Definition validated (validatorFn : option StorageValidator) (v : value) : value :=
  match validatorFn with
  | Some f =>
      match f v with
      | Normal r => r
      | Throw _ => VUndefined
      end
  | None => v
  end.
Arguments validated : simpl never.

(** A record: a value that is an object. *)
Definition is_record (v : value) : Prop := exists props, v = VObject props.

(** The validator, when there is one, returns [v] itself. *)
Definition returns_unchanged (validatorFn : option StorageValidator) (v : value)
  : Prop :=
  match validatorFn with
  | Some f => f v = Normal v
  | None => True
  end.

(** [v] survives serialization: it has a text, and the text parses back
    to [v]. *)
Definition round_trip_safe `{!JSON} (v : value) : Prop :=
  exists text, JSON_stringify v = Normal (Some text) /\ JSON_parse text = Normal v.

(** ** Callers used in the examples *)

(** [v.name], for a name that is not inherited: a [TypeError] on [null]
    and [undefined], the field of an object, [undefined] elsewhere. *)
Definition get_prop (v : value) (name : string) : completion value :=
  match v with
  | VUndefined | VNull =>
      Throw (TypeError ("Cannot read properties of null or undefined (reading '"
                        ++ name ++ "')"))
  | VObject props => Normal (default VUndefined (props !! name))
  | _ => Normal VUndefined
  end.

(** [String(v)] *)
Fixpoint to_string (v : value) : string :=
  match v with
  | VUndefined => "undefined"
  | VNull => "null"
  | VBool true => "true"
  | VBool false => "false"
  | VNumber (Int z) => pretty z
  | VNumber NaN => "NaN"
  | VBigInt z => pretty z
  | VString s => s
  | VArray elems =>
      RefJSON.join ","
        (map (fun x => match x with
                       | VUndefined | VNull => ""
                       | _ => to_string x
                       end) elems)
  | VObject _ => "[object Object]"
  end.

(** [a + b] *)
Definition js_plus (a b : value) : completion value :=
  let is_text v :=
    match v with
    | VString _ | VArray _ | VObject _ => true
    | _ => false
    end in
  let to_number v :=
    match v with
    | VNumber n => n
    | VNull | VBool false => Int 0
    | VBool true => Int 1
    | _ => NaN
    end in
  if is_text a || is_text b then Normal (VString (to_string a ++ to_string b))
  else
    match a, b with
    | VBigInt x, VBigInt y => Normal (VBigInt (x + y))
    | VBigInt _, _ | _, VBigInt _ =>
        Throw (TypeError "Cannot mix BigInt and other types, use explicit conversions")
    | _, _ =>
        match to_number a, to_number b with
        | Int x, Int y => Normal (VNumber (Int (x + y)))
        | _, _ => Normal (VNumber NaN)
        end
    end.

(** [prev => ({ count: prev.count + 1 })] *)
Definition increment (prev : value) : completion value :=
  match get_prop prev "count" with
  | Normal c =>
      match js_plus c (VNumber (Int 1)) with
      | Normal c' => Normal (VObject {[ "count" := c' ]})
      | Throw e => Throw e
      end
  | Throw e => Throw e
  end.

(** The validator of the README: [theme] is [light] or [dark]. *)
Definition theme_validator : StorageValidator := fun v =>
  match get_prop v "theme" with
  | Normal (VString "light") | Normal (VString "dark") => Normal v
  | Normal _ => Throw (Exn "Error" "Invalid theme")
  | Throw e => Throw e
  end.

(** A validator that keeps the field [count] of its input and drops the
    others, as a schema that strips unknown keys does. *)
Definition count_schema : StorageValidator := fun v =>
  match get_prop v "count" with
  | Normal (VNumber n) => Normal (VObject {[ "count" := VNumber n ]})
  | Normal _ => Throw (Exn "Error" "Expected number")
  | Throw e => Throw e
  end.

(** A validator that returns [undefined] on a value without a numeric
    [count], where it is expected to throw. *)
Definition lenient_validator : StorageValidator := fun v =>
  match v with
  | VObject props =>
      match props !! "count" with
      | Some (VNumber _) => Normal v
      | _ => Normal VUndefined
      end
  | _ => Normal VUndefined
  end.

(** A validator that keeps the field [b] of its input and drops the
    others. *)
Definition b_schema : StorageValidator := fun v =>
  match get_prop v "b" with
  | Normal b => Normal (VObject {[ "b" := b ]})
  | Throw e => Throw e
  end.

Definition merge_on : option options := Some {| merge := Some true |}.

(** ** Sequences of calls *)

(** What happens to a mounted hook: its effect runs (after the first
    render, and again when the key changes), or the caller updates. *)
Inductive action :=
| Initialize (key : string)
| Update (key : string) (updateOrValue : update_arg) (opts : option options).

Definition perform `{!JSON} (defaultValue : value)
    (validatorFn : option StorageValidator) (a : action) : Eff unit :=
  match a with
  | Initialize key => effect key validatorFn
  | Update key u o => setValue key defaultValue validatorFn u o
  end.

(** The world after the actions, each one observing the state that the
    one before has produced; an exception ends its own call only. *)
Fixpoint run `{!JSON} (defaultValue : value)
    (validatorFn : option StorageValidator) (acts : list action) (w : World)
  : World :=
  match acts with
  | [] => w
  | a :: rest =>
      run defaultValue validatorFn rest (fst (perform defaultValue validatorFn a w))
  end.

(** ** Worlds and values used in the examples *)

(** A binding that shows the stored preferences, and an update to a theme
    that the validator of the README refuses. *)
Definition prefs_world : World :=
  mkWorld true (mkStorage {[ "user-preferences" := (json_text "{'theme':'dark'}") ]} None)
    (VObject {[ "theme" := VString "dark" ]}) [].

(** A binding that shows a stored counter, over a storage whose entry has
    since lost its [count]. *)
Definition stale_counter_world : World :=
  mkWorld true (mkStorage {[ "counter" := (json_text "{'total':7}") ]} None)
    (VObject {[ "count" := VNumber (Int 2) ]}) [].

(** A browser that grants the page no room in its storage. *)
Definition full_storage : Storage := mkStorage ∅ (Some 0).

(** A browser that denies the page the access to its storage, which holds
    a counter. *)
Definition denied_storage : Storage :=
  mkStorageWith {[ "counter" := json_text "{'count':5}" ]} None true.

(** The state cell is still [null], or holds a value that the validator
    has returned. *)
Definition state_validated (f : StorageValidator) (w : World) : Prop :=
  state w = VNull \/ exists x, f x = Normal (state w).

(** A record with nested data, written through the validator of the
    README. *)
Definition profile : value :=
  VObject {[ "theme" := VString "dark";
             "fontSize" := VNumber (Int 16);
             "tags" := VArray [VString "a\b"; VNull; VBool true; VNumber (Int (-3))];
             "nested" := VObject {[ "x" := VObject ∅ ]} ]}.

(** A record with a field that [count_schema] does not keep. *)
Definition counted_with_extra : value :=
  VObject {[ "count" := VNumber (Int 1); "extra" := VNumber (Int 2) ]}.

(** ** Equations of the hook *)

Section Equations.
Context `{!JSON}.
Variable key : string.
Variable defaultValue : value.

Lemma validator_throws (f : StorageValidator) v e w :
  f v = Throw e ->
  validator (Some f) v w =
    (mkWorld (window w) (localStorage w) (state w)
       (console w ++ [("Validation failed", e)]), Normal VUndefined).
Proof. intros Hf. unfold validator, try_catch, bind, lift. rewrite Hf. reflexivity. Qed.

Lemma validator_returns (f : StorageValidator) v r w :
  f v = Normal r -> validator (Some f) v w = (w, Normal r).
Proof. intros Hf. unfold validator, try_catch, bind, lift. rewrite Hf. reflexivity. Qed.

Lemma validator_value vf v w : snd (validator vf v w) = Normal (validated vf v).
Proof.
  destruct vf as [f|]; [|reflexivity].
  unfold validated. destruct (f v) as [r|e] eqn:Hf.
  - rewrite (validator_returns _ _ _ _ Hf). reflexivity.
  - rewrite (validator_throws _ _ _ _ Hf). reflexivity.
Qed.

Lemma validator_world vf v w :
  state (fst (validator vf v w)) = state w
  /\ localStorage (fst (validator vf v w)) = localStorage w
  /\ window (fst (validator vf v w)) = window w.
Proof.
  destruct vf as [f|]; [|auto].
  destruct (f v) as [r|e] eqn:Hf.
  - rewrite (validator_returns _ _ _ _ Hf). auto.
  - rewrite (validator_throws _ _ _ _ Hf). auto.
Qed.

(** Lines 47 and 48: the state is set first; then the access to the
    storage, the serialization or the write may throw. *)
Lemma commit_eq v w :
  commit key v w =
    let w2 := mkWorld (window w) (localStorage w) v (console w) in
    match storage_access (localStorage w) with
    | Throw e => (w2, Throw e)
    | Normal _ =>
        match JSON_stringify v with
        | Throw e => (w2, Throw e)
        | Normal text =>
            match setItem (localStorage w) key (to_text text) with
            | Normal s' => (mkWorld (window w) s' v (console w), Normal tt)
            | Throw e => (w2, Throw e)
            end
        end
    end.
Proof.
  unfold commit, bind, setState, window_localStorage, lift, localStorage_setItem.
  simpl. destruct (storage_access (localStorage w)); [|reflexivity].
  destruct (JSON_stringify v); reflexivity.
Qed.

Lemma setValue_no_window vf upd opts w :
  window w = false -> setValue key defaultValue vf upd opts w = (w, Normal tt).
Proof.
  intros Hw. unfold setValue, bind, typeof_window_undefined. rewrite Hw. reflexivity.
Qed.

(** With [window] defined, [setValue] is its lines 34 to 49. *)
Lemma setValue_window vf upd opts w :
  window w = true ->
  setValue key defaultValue vf upd opts w =
    match final_value defaultValue (state w) upd opts with
    | Throw e => (w, Throw e)
    | Normal fv =>
        let '(w1, _) := validator vf fv w in
        if is_undefined (validated vf fv) then (w1, Normal tt)
        else commit key (validated vf fv) w1
    end.
Proof.
  intros Hw. unfold setValue, final_value, bind, typeof_window_undefined, read_state.
  rewrite Hw. simpl.
  assert (Hv : forall v (k : value -> Eff unit),
    match validator vf v w with
    | (w', Normal a) => k a w'
    | (w', Throw e) => (w', Throw e)
    end = (let '(w1, _) := validator vf v w in k (validated vf v) w1)).
  { intros v k. pose proof (validator_value vf v w) as Hs.
    destruct (validator vf v w) as [w1 c]. simpl in Hs. subst c. reflexivity. }
  destruct upd as [v|f]; unfold lift, ret; simpl.
  - rewrite Hv. destruct (validator vf _ w) as [w1 c].
    destruct (is_undefined (validated vf _)); reflexivity.
  - destruct (f (nullish_coalesce (state w) defaultValue)) as [v|e]; [|reflexivity].
    rewrite Hv. destruct (validator vf _ w) as [w1 c].
    destruct (is_undefined (validated vf _)); reflexivity.
Qed.

Lemma effect_no_window vf w :
  window w = false -> effect key vf w = (w, Normal tt).
Proof.
  intros Hw. unfold effect, bind, typeof_window_undefined. rewrite Hw. reflexivity.
Qed.

(** The read of line 57 is outside the [try]: what it throws leaves the
    effect. *)
Lemma effect_read_throws vf w e :
  window w = true ->
  getItem (localStorage w) key = Throw e ->
  effect key vf w = (w, Throw e).
Proof.
  intros Hw Hg. unfold effect, bind, typeof_window_undefined, localStorage_getItem.
  rewrite Hw. simpl. rewrite Hg. reflexivity.
Qed.

Lemma effect_absent vf w :
  getItem (localStorage w) key = Normal None -> effect key vf w = (w, Normal tt).
Proof.
  intros Hg. unfold effect, bind, typeof_window_undefined, localStorage_getItem.
  destruct (window w); simpl; [|reflexivity]. rewrite Hg. reflexivity.
Qed.

Lemma effect_parse_throws vf w text e :
  window w = true ->
  getItem (localStorage w) key = Normal (Some text) ->
  JSON_parse text = Throw e ->
  effect key vf w =
    (if String.eqb text "" then w
     else mkWorld (window w) (localStorage w) (state w)
            (console w ++ [("Failed to parse value from localStorage", e)]),
     Normal tt).
Proof.
  intros Hw Hg Hp. unfold effect, bind, typeof_window_undefined, localStorage_getItem.
  rewrite Hw. simpl. rewrite Hg.
  destruct (String.eqb text ""); [reflexivity|].
  unfold try_catch, lift, console_error. rewrite Hp, Hw. reflexivity.
Qed.

Lemma effect_parsed vf w text pv :
  window w = true ->
  getItem (localStorage w) key = Normal (Some text) ->
  JSON_parse text = Normal pv ->
  effect key vf w =
    let '(w1, _) := validator vf pv w in
    (if is_undefined (validated vf pv) then w1
     else mkWorld (window w1) (localStorage w1) (validated vf pv) (console w1),
     Normal tt).
Proof.
  intros Hw Hg Hp. unfold effect, bind, typeof_window_undefined, localStorage_getItem.
  rewrite Hw. simpl. rewrite Hg.
  destruct (String.eqb text "") eqn:He.
  { apply String.eqb_eq in He. subst text.
    destruct JSON_parse_empty as [e' He']. congruence. }
  unfold try_catch, lift. rewrite Hp.
  pose proof (validator_value vf pv w) as Hs.
  destruct (validator vf pv w) as [w1 c]. simpl in Hs. subst c.
  destruct (is_undefined (validated vf pv)); reflexivity.
Qed.

End Equations.

(** ** Shared facts *)

Lemma exposed_eq `{!JSON} key dv vf w :
  exposed key dv vf w = nullish_coalesce (state w) dv.
Proof. reflexivity. Qed.

Lemma validated_throws (f : StorageValidator) v e : f v = Throw e -> validated (Some f) v = VUndefined.
Proof. intros Hf. unfold validated. rewrite Hf. reflexivity. Qed.

Lemma validated_returns (f : StorageValidator) v r : f v = Normal r -> validated (Some f) v = r.
Proof. intros Hf. unfold validated. rewrite Hf. reflexivity. Qed.

Lemma validated_unchanged vf v : returns_unchanged vf v -> validated vf v = v.
Proof.
  destruct vf as [f|]; unfold validated; simpl; [|reflexivity].
  intros Hf. rewrite Hf. reflexivity.
Qed.

(** A validator that accepts writes no log line. *)
Lemma validator_accepts `{!JSON} vf v w :
  is_undefined (validated vf v) = false ->
  validator vf v w = (w, Normal (validated vf v)).
Proof.
  destruct vf as [f|]; [|reflexivity].
  unfold validated. destruct (f v) as [r|e] eqn:Hf; [|discriminate].
  intros _. apply validator_returns, Hf.
Qed.

(** What [commit] leaves: the new state, and the old storage or the
    result of one successful [setItem]. *)
Lemma commit_state `{!JSON} key v w : state (fst (commit key v w)) = v.
Proof.
  rewrite commit_eq. simpl.
  destruct (storage_access (localStorage w)); [|reflexivity].
  destruct (JSON_stringify v) as [text|e]; [|reflexivity].
  destruct (setItem (localStorage w) key (to_text text)); reflexivity.
Qed.

Lemma commit_storage `{!JSON} key v w :
  localStorage (fst (commit key v w)) = localStorage w
  \/ exists text,
       setItem (localStorage w) key text = Normal (localStorage (fst (commit key v w))).
Proof.
  rewrite commit_eq. simpl.
  destruct (storage_access (localStorage w)); [|left; reflexivity].
  destruct (JSON_stringify v) as [text|e]; [|left; reflexivity].
  destruct (setItem (localStorage w) key (to_text text)) as [s'|e] eqn:Hs.
  - right. exists (to_text text). exact Hs.
  - left. reflexivity.
Qed.

Lemma setItem_stored s key text s' :
  setItem s key text = Normal s' -> getItem s' key = Normal (Some text).
Proof.
  unfold setItem, getItem, storage_access.
  destruct (access_denied s) eqn:Ha; [discriminate|].
  destruct (quota s) as [q|].
  - destruct (storage_size (<[key:=text]> (items s)) <=? q)%nat; [|discriminate].
    intros [= <-]. simpl. f_equal. apply lookup_insert_eq.
  - intros [= <-]. simpl. f_equal. apply lookup_insert_eq.
Qed.

Lemma setItem_other s key key' text s' :
  setItem s key text = Normal s' -> key <> key' -> getItem s' key' = getItem s key'.
Proof.
  unfold setItem, getItem, storage_access. intros Hset Hne.
  destruct (access_denied s) eqn:Ha; [discriminate|].
  destruct (quota s) as [q|].
  - destruct (storage_size (<[key:=text]> (items s)) <=? q)%nat; [|discriminate].
    injection Hset as <-. simpl. f_equal. apply lookup_insert_ne, Hne.
  - injection Hset as <-. simpl. f_equal. apply lookup_insert_ne, Hne.
Qed.

(** An update whose validated value is [undefined] changes neither the
    state nor the storage, and completes normally. *)
Lemma setValue_discards `{!JSON} key dv vf upd opts w fv :
  final_value dv (state w) upd opts = Normal fv ->
  validated vf fv = VUndefined ->
  snd (setValue key dv vf upd opts w) = Normal tt
  /\ state (fst (setValue key dv vf upd opts w)) = state w
  /\ localStorage (fst (setValue key dv vf upd opts w)) = localStorage w.
Proof.
  intros Hfv Hv. destruct (window w) eqn:Hw.
  - rewrite (setValue_window _ _ _ _ _ _ Hw), Hfv, Hv. simpl.
    destruct (validator_world vf fv w) as (Hs & Hl & _).
    destruct (validator vf fv w) as [w1 c]. simpl in *. auto.
  - rewrite (setValue_no_window _ _ _ _ _ _ Hw). auto.
Qed.

(** C1. If the validator raises on the value that an update hands to it,
    the update completes normally and leaves the state, the value exposed
    to the caller and the whole storage (so the entry under the key) as
    they were before the call. *)
Theorem validator_rejection_changes_nothing `{!JSON}
    (key : string) (dv : value) (f : StorageValidator)
    (upd : update_arg) (opts : option options) (w : World) (fv : value) (e : exn) :
  final_value dv (state w) upd opts = Normal fv ->
  f fv = Throw e ->
  let w' := fst (setValue key dv (Some f) upd opts w) in
  snd (setValue key dv (Some f) upd opts w) = Normal tt
  /\ state w' = state w
  /\ exposed key dv (Some f) w' = exposed key dv (Some f) w
  /\ localStorage w' = localStorage w
  /\ getItem (localStorage w') key = getItem (localStorage w) key.
Proof.
  intros Hfv Hf w'. subst w'.
  destruct (setValue_discards key dv (Some f) upd opts w fv Hfv (validated_throws _ _ _ Hf))
    as (Hc & Hs & Hl).
  rewrite !exposed_eq, Hs, Hl. auto.
Qed.

Lemma validator_rejection_changes_nothing_witness :
  final_value (VObject {[ "theme" := VString "light" ]}) (state prefs_world)
    (Literal (VObject {[ "theme" := VString "blue" ]})) None
    = Normal (VObject {[ "theme" := VString "blue" ]})
  /\ theme_validator (VObject {[ "theme" := VString "blue" ]})
     = Throw (Exn "Error" "Invalid theme")
  /\ getItem (localStorage (fst (setValue "user-preferences"
        (VObject {[ "theme" := VString "light" ]}) (Some theme_validator)
        (Literal (VObject {[ "theme" := VString "blue" ]})) None prefs_world)))
       "user-preferences"
     = Normal (Some (json_text "{'theme':'dark'}")).
Proof.
  split; [reflexivity|]. split; [reflexivity|].
  pose proof (validator_rejection_changes_nothing "user-preferences"
    (VObject {[ "theme" := VString "light" ]}) theme_validator
    (Literal (VObject {[ "theme" := VString "blue" ]})) None prefs_world
    (VObject {[ "theme" := VString "blue" ]}) (Exn "Error" "Invalid theme")
    eq_refl eq_refl) as (_ & _ & _ & _ & Hg).
  rewrite Hg. reflexivity.
Defined.

(** C6. With no entry under the key, the state exposed after the
    initialization is [defaultValue]; the initialization completes
    normally. *)
Theorem absent_entry_exposes_default `{!JSON}
    (key : string) (dv : value) (vf : option StorageValidator)
    (has_window : bool) (s : Storage) :
  getItem s key = Normal None ->
  snd (effect key vf (mount has_window s)) = Normal tt
  /\ exposed key dv vf (fst (effect key vf (mount has_window s))) = dv.
Proof.
  intros Hg. rewrite effect_absent by exact Hg. split; reflexivity.
Qed.

Lemma absent_entry_exposes_default_witness :
  getItem (mkStorage {[ "other" := "{}" ]} None) "counter" = Normal None
  /\ exposed "counter" (VObject {[ "count" := VNumber (Int 0) ]}) None
       (fst (effect "counter" None (mount true (mkStorage {[ "other" := "{}" ]} None))))
     = VObject {[ "count" := VNumber (Int 0) ]}.
Proof.
  split; [reflexivity|].
  apply (absent_entry_exposes_default "counter" (VObject {[ "count" := VNumber (Int 0) ]})
           None true (mkStorage {[ "other" := "{}" ]} None)).
  reflexivity.
Defined.

(** C7. When the text stored under the key does not parse, the
    initialization completes without throwing, and the state exposed to
    the caller is still [defaultValue]. *)
Theorem unparseable_entry_exposes_default `{!JSON}
    (key : string) (dv : value) (vf : option StorageValidator)
    (has_window : bool) (s : Storage) (text : string) (e : exn) :
  getItem s key = Normal (Some text) ->
  JSON_parse text = Throw e ->
  snd (effect key vf (mount has_window s)) = Normal tt
  /\ exposed key dv vf (fst (effect key vf (mount has_window s))) = dv.
Proof.
  intros Hg Hp. destruct has_window.
  - rewrite (effect_parse_throws key vf (mount true s) text e eq_refl Hg Hp).
    destruct (String.eqb text ""); split; reflexivity.
  - rewrite effect_no_window by reflexivity. split; reflexivity.
Qed.

Lemma unparseable_entry_exposes_default_witness :
  getItem (mkStorage {[ "counter" := "{count:" ]} None) "counter" = Normal (Some "{count:")
  /\ JSON_parse "{count:" = Throw (SyntaxError "Unexpected token or end of JSON input")
  /\ exposed "counter" (VObject {[ "count" := VNumber (Int 0) ]}) None
       (fst (effect "counter" None (mount true (mkStorage {[ "counter" := "{count:" ]} None))))
     = VObject {[ "count" := VNumber (Int 0) ]}.
Proof.
  split; [reflexivity|]. split; [reflexivity|].
  apply (unparseable_entry_exposes_default "counter"
           (VObject {[ "count" := VNumber (Int 0) ]}) None true
           (mkStorage {[ "counter" := "{count:" ]} None) "{count:"
           (SyntaxError "Unexpected token or end of JSON input")); reflexivity.
Defined.

(** C10. A validator that returns [undefined] instead of throwing is
    treated as one that rejects: the update, and the read of the
    initialization, discard the value, leave the world (state and storage
    included) as it was, and complete normally. *)
Theorem undefined_from_validator_is_a_rejection `{!JSON}
    (key : string) (dv : value) (f : StorageValidator) (w : World) :
  (forall upd opts fv,
     final_value dv (state w) upd opts = Normal fv ->
     f fv = Normal VUndefined ->
     setValue key dv (Some f) upd opts w = (w, Normal tt))
  /\ (forall text parsed,
        getItem (localStorage w) key = Normal (Some text) ->
        JSON_parse text = Normal parsed ->
        f parsed = Normal VUndefined ->
        effect key (Some f) w = (w, Normal tt)).
Proof.
  split.
  - intros upd opts fv Hfv Hf. destruct (window w) eqn:Hw.
    + rewrite (setValue_window _ _ _ _ _ _ Hw), Hfv.
      rewrite (validator_returns _ _ _ _ Hf), (validated_returns _ _ _ Hf).
      reflexivity.
    + apply setValue_no_window, Hw.
  - intros text parsed Hg Hp Hf. destruct (window w) eqn:Hw.
    + rewrite (effect_parsed key (Some f) w text parsed Hw Hg Hp).
      rewrite (validator_returns _ _ _ _ Hf), (validated_returns _ _ _ Hf).
      reflexivity.
    + apply effect_no_window, Hw.
Qed.

Lemma undefined_from_validator_is_a_rejection_witness :
  setValue "counter" (VObject {[ "count" := VNumber (Int 0) ]})
    (Some lenient_validator) (Literal (VObject {[ "total" := VNumber (Int 5) ]}))
    None stale_counter_world
  = (stale_counter_world, Normal tt)
  /\ effect "counter" (Some lenient_validator) stale_counter_world
     = (stale_counter_world, Normal tt).
Proof.
  destruct (undefined_from_validator_is_a_rejection "counter"
              (VObject {[ "count" := VNumber (Int 0) ]}) lenient_validator
              stale_counter_world) as [Hupdate Hread].
  split.
  - apply (Hupdate (Literal (VObject {[ "total" := VNumber (Int 5) ]})) None
             (VObject {[ "total" := VNumber (Int 5) ]})); reflexivity.
  - apply (Hread (json_text "{'total':7}") (VObject {[ "total" := VNumber (Int 7) ]}));
      reflexivity.
Defined.

(** ** Which failures reach the caller *)







(** ** The exposed value under a validator *)

Lemma validated_by_validator (f : StorageValidator) (v : value) :
  is_undefined (validated (Some f) v) = false ->
  exists x, f x = Normal (validated (Some f) v).
Proof.
  unfold validated. destruct (f v) as [r|e] eqn:Hf; [|discriminate].
  intros _. exists v. exact Hf.
Qed.

Lemma setValue_state_validated `{!JSON} key dv f upd opts w :
  state_validated f w ->
  state_validated f (fst (setValue key dv (Some f) upd opts w)).
Proof.
  intros Hinv. destruct (window w) eqn:Hw.
  2:{ rewrite (setValue_no_window _ _ _ _ _ _ Hw). exact Hinv. }
  rewrite (setValue_window _ _ _ _ _ _ Hw).
  destruct (final_value dv (state w) upd opts) as [fv|e]; [|exact Hinv].
  destruct (validator_world (Some f) fv w) as (Hs & _ & _).
  destruct (validator (Some f) fv w) as [w1 c]. simpl in Hs.
  destruct (is_undefined (validated (Some f) fv)) eqn:Hu.
  { unfold state_validated. simpl. rewrite Hs. exact Hinv. }
  right. rewrite commit_state. apply validated_by_validator, Hu.
Qed.

Lemma effect_state `{!JSON} key vf w :
  state (fst (effect key vf w)) = state w
  \/ exists text pv,
       getItem (localStorage w) key = Normal (Some text)
       /\ JSON_parse text = Normal pv
       /\ is_undefined (validated vf pv) = false
       /\ state (fst (effect key vf w)) = validated vf pv.
Proof.
  destruct (window w) eqn:Hw.
  2:{ rewrite effect_no_window by exact Hw. left. reflexivity. }
  destruct (getItem (localStorage w) key) as [[text|]|e] eqn:Hg.
  - destruct (JSON_parse text) as [pv|e] eqn:Hp.
    + rewrite (effect_parsed key vf w text pv Hw Hg Hp).
      destruct (validator_world vf pv w) as (Hs & _ & _).
      destruct (validator vf pv w) as [w1 c]. simpl in Hs.
      destruct (is_undefined (validated vf pv)) eqn:Hu.
      * left. exact Hs.
      * right. exists text, pv. auto.
    + rewrite (effect_parse_throws key vf w text e Hw Hg Hp).
      left. destruct (String.eqb text ""); reflexivity.
  - rewrite effect_absent by exact Hg. left. reflexivity.
  - rewrite (effect_read_throws key vf w e Hw Hg). left. reflexivity.
Qed.

Lemma effect_state_validated `{!JSON} key f w :
  state_validated f w -> state_validated f (fst (effect key (Some f) w)).
Proof.
  intros Hinv. destruct (effect_state key (Some f) w) as [Hs|(text & pv & _ & _ & Hu & Hs)].
  - unfold state_validated. rewrite Hs. exact Hinv.
  - right. rewrite Hs. apply validated_by_validator, Hu.
Qed.

Lemma run_state_validated `{!JSON} dv f acts w :
  state_validated f w -> state_validated f (run dv (Some f) acts w).
Proof.
  revert w. induction acts as [|a acts IH]; intros w Hinv; [exact Hinv|].
  simpl. apply IH. destruct a as [key|key upd opts]; simpl.
  - apply effect_state_validated, Hinv.
  - apply setValue_state_validated, Hinv.
Qed.

(** C9. With a validator, after the mount and any sequence of
    initializations and updates (whatever the keys, the arguments and the
    outcome of each call), the value exposed to the caller is
    [defaultValue] or a value that the validator has returned. *)
Theorem exposed_is_default_or_validated `{!JSON}
    (key : string) (dv : value) (f : StorageValidator) (acts : list action)
    (has_window : bool) (s : Storage) :
  let w := run dv (Some f) acts (mount has_window s) in
  exposed key dv (Some f) w = dv
  \/ exists x, f x = Normal (exposed key dv (Some f) w).
Proof.
  intros w. rewrite exposed_eq.
  assert (Hinv : state_validated f w).
  { apply run_state_validated. left. reflexivity. }
  destruct Hinv as [Hnull | [x Hx]].
  - left. rewrite Hnull. reflexivity.
  - destruct (state w) eqn:Hs; simpl; eauto.
Qed.

(** ** Writing, then reading in a fresh binding *)

(** The value that a successful read adopts is exposed when it is a
    record. *)
Lemma effect_adopts `{!JSON} key dv vf has_window s text v :
  has_window = true ->
  getItem s key = Normal (Some text) ->
  JSON_parse text = Normal v ->
  validated vf v = v ->
  is_record v ->
  exposed key dv vf (fst (effect key vf (mount has_window s))) = v.
Proof.
  intros -> Hg Hp Hv [props ->].
  rewrite (effect_parsed key vf (mount true s) text _ eq_refl Hg Hp), Hv.
  destruct (validator vf (VObject props) (mount true s)). reflexivity.
Qed.

(** C2, as the code has it. Let [V] be a record that survives
    serialization and that the validator, if there is one, returns
    unchanged. After an update in a browser that hands [V] to the
    validator and completes normally, a fresh binding on the same key and
    the same storage exposes [V] once initialized, whatever its default
    value. *)
Theorem written_value_is_read_back `{!JSON}
    (key : string) (dv dv' : value) (vf : option StorageValidator)
    (upd : update_arg) (opts : option options) (w w' : World) (V : value) :
  is_record V ->
  round_trip_safe V ->
  returns_unchanged vf V ->
  window w = true ->
  final_value dv (state w) upd opts = Normal V ->
  setValue key dv vf upd opts w = (w', Normal tt) ->
  exposed key dv' vf
    (fst (effect key vf (mount (window w) (localStorage w')))) = V.
Proof.
  intros Hrec (text & Hj & Hp) Hvf Hw Hfv Hset.
  pose proof (validated_unchanged vf V Hvf) as Hv.
  rewrite (setValue_window _ _ _ _ _ _ Hw), Hfv, Hv in Hset.
  destruct (validator_world vf V w) as (_ & Hl & Hwin).
  destruct (validator vf V w) as [w1 c]. simpl in Hl, Hwin.
  destruct Hrec as [props ->]. simpl in Hset.
  rewrite commit_eq, Hj in Hset. simpl in Hset.
  destruct (storage_access (localStorage w1)); [|discriminate].
  destruct (setItem (localStorage w1) key text) as [s'|e] eqn:Hs; [|discriminate].
  injection Hset as <-. simpl.
  apply (effect_adopts key dv' vf (window w) s' text (VObject props)).
  - exact Hw.
  - exact (setItem_stored _ _ _ _ Hs).
  - exact Hp.
  - exact Hv.
  - exists props. reflexivity.
Qed.

Lemma written_value_is_read_back_witness :
  round_trip_safe profile
  /\ returns_unchanged (Some theme_validator) profile
  /\ exposed "user-preferences" VNull (Some theme_validator)
       (fst (effect "user-preferences" (Some theme_validator)
          (mount true (localStorage (fst
             (setValue "user-preferences" (VObject {[ "theme" := VString "light" ]})
                (Some theme_validator) (Literal profile) None
                (mount true (mkStorage ∅ (Some 200)))))))))
     = profile.
Proof.
  assert (Hsafe : round_trip_safe profile).
  { eexists. split; [vm_compute; reflexivity|]. vm_compute. reflexivity. }
  split; [exact Hsafe|]. split; [reflexivity|].
  apply (written_value_is_read_back "user-preferences"
           (VObject {[ "theme" := VString "light" ]}) VNull (Some theme_validator)
           (Literal profile) None (mount true (mkStorage ∅ (Some 200)))
           (fst (setValue "user-preferences" (VObject {[ "theme" := VString "light" ]})
                   (Some theme_validator) (Literal profile) None
                   (mount true (mkStorage ∅ (Some 200)))))
           profile).
  - eexists. reflexivity.
  - exact Hsafe.
  - reflexivity.
  - reflexivity.
  - reflexivity.
  - vm_compute. reflexivity.
Defined.

(** C2 fails as stated: [counted_with_extra] survives serialization and
    passes [count_schema], the update that writes it completes normally,
    and the fresh binding exposes the record without its [extra] field. *)
Lemma validator_output_is_read_back_not_the_input :
  let w := mount true (mkStorage ∅ None) in
  let r := setValue "counter" (VObject {[ "count" := VNumber (Int 0) ]})
             (Some count_schema) (Literal counted_with_extra) None w in
  let fresh := fst (effect "counter" (Some count_schema)
                      (mount true (localStorage (fst r)))) in
  is_record counted_with_extra
  /\ round_trip_safe counted_with_extra
  /\ count_schema counted_with_extra = Normal (VObject {[ "count" := VNumber (Int 1) ]})
  /\ snd r = Normal tt
  /\ getItem (localStorage (fst r)) "counter" = Normal (Some (json_text "{'count':1}"))
  /\ exposed "counter" (VObject {[ "count" := VNumber (Int 0) ]}) (Some count_schema) fresh
     = VObject {[ "count" := VNumber (Int 1) ]}
  /\ exposed "counter" (VObject {[ "count" := VNumber (Int 0) ]}) (Some count_schema) fresh
     <> counted_with_extra.
Proof.
  cbv zeta. split; [eexists; reflexivity|].
  split; [eexists; split; [vm_compute; reflexivity|]; vm_compute; reflexivity|].
  split; [reflexivity|]. split; [reflexivity|]. split; [vm_compute; reflexivity|].
  assert (He : exposed "counter" (VObject {[ "count" := VNumber (Int 0) ]})
                 (Some count_schema)
                 (fst (effect "counter" (Some count_schema)
                    (mount true (localStorage (fst
                       (setValue "counter" (VObject {[ "count" := VNumber (Int 0) ]})
                          (Some count_schema) (Literal counted_with_extra) None
                          (mount true (mkStorage ∅ None))))))))
               = VObject {[ "count" := VNumber (Int 1) ]}).
  { vm_compute. reflexivity. }
  split; [exact He|]. rewrite He. unfold counted_with_extra. intros Heq.
  assert (Hx : own_properties (VObject {[ "count" := VNumber (Int 1) ]}) !! "extra"
               = own_properties
                   (VObject {[ "count" := VNumber (Int 1); "extra" := VNumber (Int 2) ]})
                 !! "extra").
  { rewrite Heq. reflexivity. }
  vm_compute in Hx. discriminate.
Qed.

(** ** Updates that are accepted *)

(** In a browser, an update whose validated value is not [undefined] sets
    the state to that value, whatever becomes of the write. *)
Lemma setValue_sets_state `{!JSON} key dv vf upd opts w fv :
  window w = true ->
  final_value dv (state w) upd opts = Normal fv ->
  is_undefined (validated vf fv) = false ->
  state (fst (setValue key dv vf upd opts w)) = validated vf fv.
Proof.
  intros Hw Hfv Hu. rewrite (setValue_window _ _ _ _ _ _ Hw), Hfv, Hu.
  destruct (validator vf fv w) as [w1 c]. apply commit_state.
Qed.

(** Without a validator, with access to a storage that has room, an
    update completes normally, sets the state and stores the text of the
    value. *)
Lemma setValue_stores `{!JSON} key dv upd opts w fv text :
  window w = true ->
  access_denied (localStorage w) = false ->
  quota (localStorage w) = None ->
  final_value dv (state w) upd opts = Normal fv ->
  is_undefined fv = false ->
  JSON_stringify fv = Normal text ->
  setValue key dv None upd opts w =
    (mkWorld true (mkStorage (<[key := to_text text]> (items (localStorage w))) None)
       fv (console w), Normal tt).
Proof.
  intros Hw Ha Hq Hfv Hu Hj. rewrite (setValue_window _ _ _ _ _ _ Hw), Hfv.
  unfold validated, validator, ret. rewrite Hu, commit_eq, Hj.
  unfold setItem, storage_access. simpl. rewrite Ha, Hq, Hw. reflexivity.
Qed.

(** A field of [{ ...a, ...b }] is that of [b] when [b] has it, and that
    of [a] otherwise; it is taken whole, objects included. *)
Lemma spread2_lookup a b name :
  own_properties (spread2 a b) !! name =
    match own_properties b !! name with
    | Some x => Some x
    | None => own_properties a !! name
    end.
Proof.
  unfold spread2. simpl. rewrite lookup_union.
  destruct (own_properties b !! name), (own_properties a !! name); reflexivity.
Qed.

(** The merge of the specification's example. *)
Lemma spread2_example :
  spread2 (VObject {[ "a" := VNumber (Int 1); "b" := VObject {[ "x" := VNumber (Int 1) ]} ]})
          (VObject {[ "b" := VObject {[ "y" := VNumber (Int 2) ]} ]})
  = VObject {[ "a" := VNumber (Int 1); "b" := VObject {[ "y" := VNumber (Int 2) ]} ]}.
Proof. vm_compute. reflexivity. Qed.

(** C5, as the code has it. When the state held by the binding is
    [{a:1, b:{x:1}}], an update in a browser with [{b:{y:2}}] and the
    merge flag, with no validator or with one that returns the merged
    value, gives the state [{a:1, b:{y:2}}]: the object under [b] is
    replaced. *)
Theorem merge_replaces_nested_object `{!JSON}
    (key : string) (dv : value) (vf : option StorageValidator) (w : World) :
  window w = true ->
  state w = VObject {[ "a" := VNumber (Int 1); "b" := VObject {[ "x" := VNumber (Int 1) ]} ]} ->
  returns_unchanged vf
    (VObject {[ "a" := VNumber (Int 1); "b" := VObject {[ "y" := VNumber (Int 2) ]} ]}) ->
  exposed key dv vf
    (fst (setValue key dv vf
            (Literal (VObject {[ "b" := VObject {[ "y" := VNumber (Int 2) ]} ]}))
            merge_on w))
  = VObject {[ "a" := VNumber (Int 1); "b" := VObject {[ "y" := VNumber (Int 2) ]} ]}.
Proof.
  intros Hw Hs Hvf. rewrite exposed_eq.
  pose proof (validated_unchanged _ _ Hvf) as Hv.
  rewrite (setValue_sets_state key dv vf _ merge_on w
             (VObject {[ "a" := VNumber (Int 1); "b" := VObject {[ "y" := VNumber (Int 2) ]} ]})
             Hw).
  - rewrite Hv. reflexivity.
  - unfold final_value. simpl merge_set. cbv iota. rewrite Hs, spread2_example.
    reflexivity.
  - rewrite Hv. reflexivity.
Qed.

Lemma merge_replaces_nested_object_witness :
  exposed "k" VNull None
    (fst (setValue "k" VNull None
            (Literal (VObject {[ "b" := VObject {[ "y" := VNumber (Int 2) ]} ]}))
            merge_on
            (mkWorld true (mkStorage ∅ None)
               (VObject {[ "a" := VNumber (Int 1);
                           "b" := VObject {[ "x" := VNumber (Int 1) ]} ]}) [])))
  = VObject {[ "a" := VNumber (Int 1); "b" := VObject {[ "y" := VNumber (Int 2) ]} ]}.
Proof.
  apply (merge_replaces_nested_object "k" VNull None
           (mkWorld true (mkStorage ∅ None)
              (VObject {[ "a" := VNumber (Int 1);
                          "b" := VObject {[ "x" := VNumber (Int 1) ]} ]}) []));
    reflexivity.
Defined.

(** C5 fails as stated: the binding holds and exposes [{a:1, b:{x:1}}],
    the validator [b_schema] does not reject the merged value, the update
    completes normally, and the resulting state is what the validator
    has returned, [{b:{y:2}}], not [{a:1, b:{y:2}}]. *)
Lemma merge_result_is_what_the_validator_returns :
  let w := mkWorld true (mkStorage ∅ None)
             (VObject {[ "a" := VNumber (Int 1);
                         "b" := VObject {[ "x" := VNumber (Int 1) ]} ]}) [] in
  let r := setValue "k" VNull (Some b_schema)
             (Literal (VObject {[ "b" := VObject {[ "y" := VNumber (Int 2) ]} ]}))
             merge_on w in
  exposed "k" VNull (Some b_schema) w
  = VObject {[ "a" := VNumber (Int 1); "b" := VObject {[ "x" := VNumber (Int 1) ]} ]}
  /\ b_schema
       (VObject {[ "a" := VNumber (Int 1); "b" := VObject {[ "y" := VNumber (Int 2) ]} ]})
     = Normal (VObject {[ "b" := VObject {[ "y" := VNumber (Int 2) ]} ]})
  /\ snd r = Normal tt
  /\ exposed "k" VNull (Some b_schema) (fst r)
     = VObject {[ "b" := VObject {[ "y" := VNumber (Int 2) ]} ]}
  /\ own_properties (exposed "k" VNull (Some b_schema) (fst r)) !! "a" = None
  /\ own_properties
       (VObject {[ "a" := VNumber (Int 1); "b" := VObject {[ "y" := VNumber (Int 2) ]} ]})
     !! "a" = Some (VNumber (Int 1)).
Proof. vm_compute. auto 10. Qed.

(** Before a stored value is adopted the state cell is [null], and a
    merging update spreads that [null]: the result has the fields of the
    candidate only. *)
Lemma merge_over_null_state `{!JSON} key dv v w :
  window w = true ->
  state w = VNull ->
  exposed key dv None (fst (setValue key dv None (Literal v) merge_on w))
  = VObject (own_properties v).
Proof.
  intros Hw Hs. rewrite exposed_eq.
  rewrite (setValue_sets_state key dv None _ merge_on w (spread2 VNull v) Hw).
  - unfold validated, spread2. simpl. rewrite (right_id_L ∅ (∪)). reflexivity.
  - unfold final_value. simpl merge_set. cbv iota. rewrite Hs. reflexivity.
  - reflexivity.
Qed.

(** C4, at the first render. The defaults of the README's example of a
    partial update; nothing is stored, so the caller sees them. The
    merging update of the example then exposes the candidate alone: the
    field [name] of the value that the caller observed is gone. *)
Theorem merge_at_first_render_loses_default_fields :
  let dv := VObject {[ "name" := VString "";
                       "settings" := VObject {[ "theme" := VString "light" ]} ]} in
  let candidate := VObject {[ "settings" := VObject {[ "theme" := VString "dark" ]} ]} in
  let w := fst (effect "user-data" None (mount true (mkStorage ∅ None))) in
  let w' := fst (setValue "user-data" dv None (Literal candidate) merge_on w) in
  exposed "user-data" dv None w = dv
  /\ exposed "user-data" dv None w' = candidate
  /\ own_properties (exposed "user-data" dv None w') !! "name" = None
  /\ own_properties (spread2 (exposed "user-data" dv None w) candidate) !! "name"
     = Some (VString "").
Proof. vm_compute. auto. Qed.

(** ** The counter *)

Lemma increment_count (n : Z) :
  increment (VObject {[ "count" := VNumber (Int n) ]})
  = Normal (VObject {[ "count" := VNumber (Int (n + 1)) ]}).
Proof. reflexivity. Qed.

(** C8. On key [counter] with default [{count:0}] and no validator, in a
    browser that grants access to a storage with room, three updates with
    [prev => ({count: prev.count + 1})], each observing the state left by
    the one before, complete normally, expose [{count:3}] and leave under
    the key the text [{"count":3}], which parses to that value. *)
Theorem three_increments_count_to_three (w : World) :
  window w = true ->
  access_denied (localStorage w) = false ->
  quota (localStorage w) = None ->
  exposed "counter" (VObject {[ "count" := VNumber (Int 0) ]}) None w
  = VObject {[ "count" := VNumber (Int 0) ]} ->
  let update :=
    setValue "counter" (VObject {[ "count" := VNumber (Int 0) ]}) None
      (Updater increment) None in
  let r := (update;; update;; update)%eff w in
  snd r = Normal tt
  /\ exposed "counter" (VObject {[ "count" := VNumber (Int 0) ]}) None (fst r)
     = VObject {[ "count" := VNumber (Int 3) ]}
  /\ getItem (localStorage (fst r)) "counter" = Normal (Some (json_text "{'count':3}"))
  /\ JSON_parse (json_text "{'count':3}") = Normal (VObject {[ "count" := VNumber (Int 3) ]}).
Proof.
  intros Hw Ha Hq He update r.
  assert (Hstep : forall (n : Z) w0 text,
            window w0 = true ->
            access_denied (localStorage w0) = false ->
            quota (localStorage w0) = None ->
            nullish_coalesce (state w0) (VObject {[ "count" := VNumber (Int 0) ]})
            = VObject {[ "count" := VNumber (Int n) ]} ->
            JSON_stringify (VObject {[ "count" := VNumber (Int (n + 1)) ]})
            = Normal (Some text) ->
            update w0 =
              (mkWorld true
                 (mkStorage (<["counter" := text]> (items (localStorage w0))) None)
                 (VObject {[ "count" := VNumber (Int (n + 1)) ]}) (console w0),
               Normal tt)).
  { intros n w0 text Hw0 Ha0 Hq0 Hs0 Hj. unfold update.
    apply (setValue_stores "counter" _ (Updater increment) None w0
             (VObject {[ "count" := VNumber (Int (n + 1)) ]}) (Some text) Hw0 Ha0 Hq0).
    - unfold final_value. rewrite Hs0, increment_count. reflexivity.
    - reflexivity.
    - exact Hj. }
  subst r. unfold bind.
  rewrite (Hstep 0%Z w (json_text "{'count':1}") Hw Ha Hq He eq_refl).
  rewrite (Hstep 1%Z _ (json_text "{'count':2}")); [|reflexivity..].
  rewrite (Hstep 2%Z _ (json_text "{'count':3}")); [|reflexivity..].
  split; [reflexivity|]. split; [reflexivity|]. split; [|reflexivity].
  unfold getItem. simpl. f_equal. apply lookup_insert_eq.
Qed.

Lemma three_increments_count_to_three_witness :
  let w := fst (effect "counter" None (mount true (mkStorage ∅ None))) in
  let update :=
    setValue "counter" (VObject {[ "count" := VNumber (Int 0) ]}) None
      (Updater increment) None in
  exposed "counter" (VObject {[ "count" := VNumber (Int 0) ]}) None w
  = VObject {[ "count" := VNumber (Int 0) ]}
  /\ getItem (localStorage (fst ((update;; update;; update)%eff w))) "counter"
     = Normal (Some (json_text "{'count':3}")).
Proof.
  cbv zeta. split; [reflexivity|].
  apply (three_increments_count_to_three
           (fst (effect "counter" None (mount true (mkStorage ∅ None)))));
    reflexivity.
Defined.

(** ** Further properties of the hook *)

(** The storage after an update is the storage before it, or the result
    of one successful [setItem] under the key of the hook. *)
Lemma setValue_storage `{!JSON} key dv vf upd opts w :
  localStorage (fst (setValue key dv vf upd opts w)) = localStorage w
  \/ exists text,
       setItem (localStorage w) key text
       = Normal (localStorage (fst (setValue key dv vf upd opts w))).
Proof.
  destruct (window w) eqn:Hw.
  2:{ rewrite (setValue_no_window _ _ _ _ _ _ Hw). left. reflexivity. }
  rewrite (setValue_window _ _ _ _ _ _ Hw).
  destruct (final_value dv (state w) upd opts) as [fv|e]; [|left; reflexivity].
  destruct (validator_world vf fv w) as (_ & Hl & _).
  destruct (validator vf fv w) as [w1 c]. simpl in Hl.
  destruct (is_undefined (validated vf fv)); [left; exact Hl|].
  rewrite <- Hl. apply commit_storage.
Qed.

(** The effect changes neither [window] nor the storage. *)
Lemma effect_host `{!JSON} key vf w :
  window (fst (effect key vf w)) = window w
  /\ localStorage (fst (effect key vf w)) = localStorage w.
Proof.
  destruct (window w) eqn:Hw; [|rewrite effect_no_window by exact Hw; auto].
  destruct (getItem (localStorage w) key) as [[text|]|e] eqn:Hg.
  - destruct (JSON_parse text) as [pv|e] eqn:Hp.
    + rewrite (effect_parsed key vf w text pv Hw Hg Hp).
      destruct (validator_world vf pv w) as (_ & Hl & Hwin).
      destruct (validator vf pv w) as [w1 c]. simpl in Hl, Hwin.
      destruct (is_undefined (validated vf pv)); simpl; rewrite Hwin, Hl; auto.
    + rewrite (effect_parse_throws key vf w text e Hw Hg Hp).
      destruct (String.eqb text ""); simpl; auto.
  - rewrite effect_absent by exact Hg; auto.
  - rewrite (effect_read_throws key vf w e Hw Hg). auto.
Qed.

(** X1. Where [window] is not defined (rendering on a server), every
    initialization and every update returns normally at once and leaves
    the world as it was, whatever the updater function, the validator and
    the storage would have done: an updater that throws is not called, a
    storage that denies its access is not read. So does any sequence of
    them. *)
Theorem without_window_nothing_happens `{!JSON}
    (dv : value) (vf : option StorageValidator) (w : World) :
  window w = false ->
  (forall a, perform dv vf a w = (w, Normal tt))
  /\ (forall acts, run dv vf acts w = w).
Proof.
  intros Hw.
  assert (Hone : forall a, perform dv vf a w = (w, Normal tt)).
  { intros [key|key upd opts]; simpl.
    - apply effect_no_window, Hw.
    - apply setValue_no_window, Hw. }
  split; [exact Hone|].
  intros acts. induction acts as [|a acts IH]; [reflexivity|].
  simpl. rewrite Hone. exact IH.
Qed.

Lemma without_window_nothing_happens_witness :
  perform (VObject {[ "count" := VNumber (Int 0) ]}) (Some theme_validator)
    (Update "counter" (Updater (fun _ => Throw (Exn "Error" "never called"))) None)
    (mkWorld false denied_storage VNull [])
  = (mkWorld false denied_storage VNull [], Normal tt)
  /\ perform (VObject {[ "count" := VNumber (Int 0) ]}) (Some theme_validator)
       (Initialize "counter") (mkWorld false denied_storage VNull [])
     = (mkWorld false denied_storage VNull [], Normal tt)
  /\ run (VObject {[ "count" := VNumber (Int 0) ]}) (Some theme_validator)
       [Initialize "counter";
        Update "counter" (Updater (fun _ => Throw (Exn "Error" "never called"))) None;
        Update "counter" (Literal (VObject {[ "theme" := VString "light" ]})) merge_on]
       (mkWorld false denied_storage VNull [])
     = mkWorld false denied_storage VNull [].
Proof.
  destruct (without_window_nothing_happens (VObject {[ "count" := VNumber (Int 0) ]})
              (Some theme_validator) (mkWorld false denied_storage VNull []) eq_refl)
    as [Hone Hall].
  split; [apply Hone|]. split; [apply Hone|apply Hall].
Defined.

(** X2. An entry that is absent or is the empty text is skipped by the
    initialization: nothing is parsed, validated or logged, and a binding
    that already shows a value (after a change of key) keeps showing it. *)
Theorem absent_or_empty_entry_changes_nothing `{!JSON}
    (key : string) (vf : option StorageValidator) (w : World) :
  getItem (localStorage w) key = Normal None
  \/ getItem (localStorage w) key = Normal (Some "") ->
  effect key vf w = (w, Normal tt).
Proof.
  intros [Hg|Hg]; [apply effect_absent, Hg|].
  unfold effect, bind, typeof_window_undefined, localStorage_getItem.
  destruct (window w); simpl; [|reflexivity]. rewrite Hg. reflexivity.
Qed.

Lemma absent_or_empty_entry_changes_nothing_witness :
  effect "settings" (Some theme_validator) prefs_world = (prefs_world, Normal tt)
  /\ exposed "settings" VNull (Some theme_validator)
       (fst (effect "settings" (Some theme_validator) prefs_world))
     = VObject {[ "theme" := VString "dark" ]}.
Proof.
  assert (He : effect "settings" (Some theme_validator) prefs_world
               = (prefs_world, Normal tt)).
  { apply (absent_or_empty_entry_changes_nothing "settings" (Some theme_validator)
             prefs_world).
    left. reflexivity. }
  split; [exact He|]. rewrite He. reflexivity.
Defined.

(** X3. When the stored text parses and the validator (if any) returns
    a value other than [undefined] for it, the initialization sets the
    state to that value, logs nothing and leaves the storage as it is. *)
Theorem initialization_adopts_validated_value `{!JSON}
    (key : string) (vf : option StorageValidator) (w : World)
    (text : string) (parsed : value) :
  window w = true ->
  getItem (localStorage w) key = Normal (Some text) ->
  JSON_parse text = Normal parsed ->
  is_undefined (validated vf parsed) = false ->
  effect key vf w =
    (mkWorld (window w) (localStorage w) (validated vf parsed) (console w), Normal tt).
Proof.
  intros Hw Hg Hp Hu.
  rewrite (effect_parsed key vf w text parsed Hw Hg Hp).
  rewrite (validator_accepts vf parsed w Hu), Hu. reflexivity.
Qed.

Lemma initialization_adopts_validated_value_witness :
  effect "counter" (Some count_schema)
    (mount true (mkStorage {[ "counter" := json_text "{'count':4,'extra':true}" ]} None))
  = (mkWorld true (mkStorage {[ "counter" := json_text "{'count':4,'extra':true}" ]} None)
       (VObject {[ "count" := VNumber (Int 4) ]}) [], Normal tt).
Proof.
  rewrite (initialization_adopts_validated_value "counter" (Some count_schema)
             (mount true (mkStorage {[ "counter" := json_text "{'count':4,'extra':true}" ]} None))
             (json_text "{'count':4,'extra':true}")
             (VObject {[ "count" := VNumber (Int 4); "extra" := VBool true ]}));
    reflexivity.
Defined.

(** X4. When the validator throws on the value parsed from the stored
    text, the initialization completes normally with the state and the
    storage as they were (the refused entry stays in the storage) and one
    line, [Validation failed] with the error, added to the log. *)
Theorem rejected_entry_is_ignored_and_logged `{!JSON}
    (key : string) (f : StorageValidator) (w : World)
    (text : string) (parsed : value) (e : exn) :
  window w = true ->
  getItem (localStorage w) key = Normal (Some text) ->
  JSON_parse text = Normal parsed ->
  f parsed = Throw e ->
  effect key (Some f) w =
    (mkWorld (window w) (localStorage w) (state w)
       (console w ++ [("Validation failed", e)]), Normal tt).
Proof.
  intros Hw Hg Hp Hf.
  rewrite (effect_parsed key (Some f) w text parsed Hw Hg Hp).
  rewrite (validator_throws f parsed e w Hf), (validated_throws f parsed e Hf).
  reflexivity.
Qed.

Lemma rejected_entry_is_ignored_and_logged_witness :
  effect "counter" (Some count_schema) stale_counter_world
  = (mkWorld true (localStorage stale_counter_world)
       (VObject {[ "count" := VNumber (Int 2) ]})
       [("Validation failed", Exn "Error" "Expected number")], Normal tt).
Proof.
  rewrite (rejected_entry_is_ignored_and_logged "counter" count_schema stale_counter_world
             (json_text "{'total':7}") (VObject {[ "total" := VNumber (Int 7) ]})
             (Exn "Error" "Expected number")); reflexivity.
Defined.

(** X5. The initialization only reads: on every path it leaves the
    storage exactly as it found it. *)
Theorem initialization_never_writes `{!JSON}
    (key : string) (vf : option StorageValidator) (w : World) :
  localStorage (fst (effect key vf w)) = localStorage w.
Proof. apply effect_host. Qed.

(** X6. An update never changes what is stored under another key,
    whatever its arguments and its outcome. *)
Theorem update_touches_only_its_key `{!JSON}
    (key key' : string) (dv : value) (vf : option StorageValidator)
    (upd : update_arg) (opts : option options) (w : World) :
  key <> key' ->
  getItem (localStorage (fst (setValue key dv vf upd opts w))) key'
  = getItem (localStorage w) key'.
Proof.
  intros Hne. destruct (setValue_storage key dv vf upd opts w) as [Heq|[text Hs]].
  - rewrite Heq. reflexivity.
  - exact (setItem_other _ _ _ _ _ Hs Hne).
Qed.

Lemma update_touches_only_its_key_witness :
  getItem (localStorage (fst (setValue "counter" VNull None
     (Literal (VObject {[ "count" := VNumber (Int 1) ]})) None prefs_world)))
    "user-preferences"
  = Normal (Some (json_text "{'theme':'dark'}")).
Proof.
  rewrite (update_touches_only_its_key "counter" "user-preferences" VNull None
             (Literal (VObject {[ "count" := VNumber (Int 1) ]})) None prefs_world).
  - reflexivity.
  - discriminate.
Defined.

(** X7. The state is set before the storage is accessed and the value
    is serialized and written: when the access, the serialization or the
    write throws, the error reaches the caller, the state already holds
    the new value and the storage still holds the old entry. *)
Theorem failed_write_keeps_the_new_state `{!JSON}
    (key : string) (dv : value) (vf : option StorageValidator)
    (upd : update_arg) (opts : option options) (w : World) (fv : value) (e : exn) :
  window w = true ->
  final_value dv (state w) upd opts = Normal fv ->
  is_undefined (validated vf fv) = false ->
  storage_access (localStorage w) = Throw e
  \/ (storage_access (localStorage w) = Normal tt
      /\ JSON_stringify (validated vf fv) = Throw e)
  \/ (exists text,
        JSON_stringify (validated vf fv) = Normal text
        /\ setItem (localStorage w) key (to_text text) = Throw e) ->
  setValue key dv vf upd opts w =
    (mkWorld (window w) (localStorage w) (validated vf fv) (console w), Throw e).
Proof.
  intros Hw Hfv Hu Hfail.
  rewrite (setValue_window _ _ _ _ _ _ Hw), Hfv, (validator_accepts vf fv w Hu), Hu.
  rewrite commit_eq. simpl.
  destruct Hfail as [Ha|[[Ha Hj]|(text & Hj & Hs)]].
  - rewrite Ha. reflexivity.
  - rewrite Ha, Hj. reflexivity.
  - rewrite Hj, Hs.
    destruct (storage_access (localStorage w)) as [[]|e'] eqn:Ha; [reflexivity|].
    unfold setItem in Hs. rewrite Ha in Hs. injection Hs as ->. reflexivity.
Qed.

Lemma failed_write_keeps_the_new_state_witness :
  setValue "counter" VNull None (Literal (VObject {[ "count" := VNumber (Int 1) ]})) None
    (mount true full_storage)
  = (mkWorld true full_storage (VObject {[ "count" := VNumber (Int 1) ]}) [],
     Throw QuotaExceededError)
  /\ setValue "counter" VNull None (Literal (VObject {[ "n" := VBigInt 10 ]})) None
       (mount true denied_storage)
     = (mkWorld true denied_storage (VObject {[ "n" := VBigInt 10 ]}) [],
        Throw SecurityError).
Proof.
  split.
  - rewrite (failed_write_keeps_the_new_state "counter" VNull None
               (Literal (VObject {[ "count" := VNumber (Int 1) ]})) None
               (mount true full_storage) (VObject {[ "count" := VNumber (Int 1) ]})
               QuotaExceededError).
    + reflexivity.
    + reflexivity.
    + reflexivity.
    + reflexivity.
    + right. right. eexists. split; [vm_compute; reflexivity|]. reflexivity.
  - rewrite (failed_write_keeps_the_new_state "counter" VNull None
               (Literal (VObject {[ "n" := VBigInt 10 ]})) None
               (mount true denied_storage) (VObject {[ "n" := VBigInt 10 ]})
               SecurityError).
    + reflexivity.
    + reflexivity.
    + reflexivity.
    + reflexivity.
    + left. reflexivity.
Defined.

(** X8. An updater function is applied to the value that the caller
    observes, [state ?? defaultValue]: at the first render it receives
    [defaultValue]. Without a validator and without the merge flag, its
    result (when not [undefined]) becomes the state. *)
Theorem updater_receives_the_exposed_value `{!JSON}
    (key : string) (dv : value) (f : value -> completion value)
    (opts : option options) (w : World) (v : value) :
  window w = true ->
  merge_set opts = false ->
  f (exposed key dv None w) = Normal v ->
  is_undefined v = false ->
  state (fst (setValue key dv None (Updater f) opts w)) = v.
Proof.
  intros Hw Hm Hf Hu. rewrite exposed_eq in Hf.
  rewrite (setValue_sets_state key dv None (Updater f) opts w v Hw).
  - reflexivity.
  - unfold final_value. rewrite Hf, Hm. reflexivity.
  - exact Hu.
Qed.

Lemma updater_receives_the_exposed_value_witness :
  state (fst (setValue "counter" (VObject {[ "count" := VNumber (Int 41) ]}) None
                (Updater increment) None (mount true (mkStorage ∅ None))))
  = VObject {[ "count" := VNumber (Int 42) ]}.
Proof.
  apply (updater_receives_the_exposed_value "counter"
           (VObject {[ "count" := VNumber (Int 41) ]}) increment None
           (mount true (mkStorage ∅ None))); reflexivity.
Defined.

(** X9. With the merge flag and no validator, each field of the new
    state is the field of the candidate when the candidate has it, and
    otherwise the field of the state cell as it was (not of
    [defaultValue]). A field is taken whole: there is no merge below the
    first level. *)
Theorem merge_is_shallow_over_the_state_cell `{!JSON}
    (key : string) (dv : value) (w : World) (v : value) (name : string) :
  window w = true ->
  own_properties (state (fst (setValue key dv None (Literal v) merge_on w))) !! name =
    match own_properties v !! name with
    | Some x => Some x
    | None => own_properties (state w) !! name
    end.
Proof.
  intros Hw.
  rewrite (setValue_sets_state key dv None (Literal v) merge_on w
             (spread2 (state w) v) Hw); [|reflexivity|reflexivity].
  apply spread2_lookup.
Qed.

Lemma merge_is_shallow_over_the_state_cell_witness :
  own_properties (state (fst (setValue "user-preferences" VNull None
     (Literal (VObject {[ "fontSize" := VNumber (Int 18) ]})) merge_on prefs_world)))
    !! "theme"
  = Some (VString "dark").
Proof.
  rewrite (merge_is_shallow_over_the_state_cell "user-preferences" VNull prefs_world
             (VObject {[ "fontSize" := VNumber (Int 18) ]}) "theme"); reflexivity.
Defined.

(** X10. Running the initialization a second time (as a development
    build of the host framework does) changes neither the state nor the
    storage that the first run has left. *)
Theorem initialization_twice_is_initialization_once `{!JSON}
    (key : string) (vf : option StorageValidator) (w : World) :
  let w1 := fst (effect key vf w) in
  let w2 := fst (effect key vf w1) in
  state w2 = state w1 /\ localStorage w2 = localStorage w1.
Proof.
  intros w1 w2. split; [|apply effect_host].
  destruct (window w) eqn:Hw.
  2:{ subst w2 w1. rewrite (effect_no_window key vf w Hw). simpl.
      rewrite (effect_no_window key vf w Hw). reflexivity. }
  destruct (effect_host key vf w) as [_ Hsto]. fold w1 in Hsto.
  destruct (effect_state key vf w1) as [Hs|(text & pv & Hg1 & Hp & Hu & Hs2)];
    [exact Hs|].
  fold w2 in Hs2. rewrite Hs2. rewrite Hsto in Hg1.
  subst w1. rewrite (effect_parsed key vf w text pv Hw Hg1 Hp).
  destruct (validator vf pv w). rewrite Hu. reflexivity.
Qed.

(** X11. Of two updates with literal values in a row (no merge, no
    validator, room in the storage), the first leaves no trace: the
    world is the one that the second update alone would have produced. *)
Theorem last_write_wins `{!JSON}
    (key : string) (dv : value) (w : World) (v1 v2 : value) (t1 t2 : option string) :
  window w = true ->
  access_denied (localStorage w) = false ->
  quota (localStorage w) = None ->
  is_undefined v1 = false ->
  is_undefined v2 = false ->
  JSON_stringify v1 = Normal t1 ->
  JSON_stringify v2 = Normal t2 ->
  (setValue key dv None (Literal v1) None;;
   setValue key dv None (Literal v2) None)%eff w
  = setValue key dv None (Literal v2) None w.
Proof.
  intros Hw Ha Hq Hu1 Hu2 Hj1 Hj2. unfold bind.
  rewrite (setValue_stores key dv (Literal v1) None w v1 t1 Hw Ha Hq eq_refl Hu1 Hj1).
  rewrite (setValue_stores key dv (Literal v2) None w v2 t2 Hw Ha Hq eq_refl Hu2 Hj2).
  rewrite (setValue_stores key dv (Literal v2) None _ v2 t2);
    [|reflexivity|reflexivity|reflexivity|reflexivity|exact Hu2|exact Hj2].
  simpl. rewrite insert_insert_eq. reflexivity.
Qed.

Lemma last_write_wins_witness :
  getItem (localStorage (fst
    ((setValue "counter" VNull None (Literal (VObject {[ "count" := VNumber (Int 1) ]})) None;;
      setValue "counter" VNull None (Literal (VObject {[ "count" := VNumber (Int 7) ]})) None)%eff
       (mount true (mkStorage ∅ None)))))
    "counter"
  = Normal (Some (json_text "{'count':7}")).
Proof.
  rewrite (last_write_wins "counter" VNull (mount true (mkStorage ∅ None))
             (VObject {[ "count" := VNumber (Int 1) ]})
             (VObject {[ "count" := VNumber (Int 7) ]})
             (Some (json_text "{'count':1}")) (Some (json_text "{'count':7}")));
    reflexivity.
Defined.

(** X12. After an update that was accepted and completed normally in a
    browser, the state and the entry agree: the state is the validated
    value and the entry under the key is its serialization. *)
Theorem accepted_update_syncs_state_and_entry `{!JSON}
    (key : string) (dv : value) (vf : option StorageValidator)
    (upd : update_arg) (opts : option options) (w w' : World) (fv : value) :
  window w = true ->
  final_value dv (state w) upd opts = Normal fv ->
  is_undefined (validated vf fv) = false ->
  setValue key dv vf upd opts w = (w', Normal tt) ->
  state w' = validated vf fv
  /\ exists text,
       JSON_stringify (state w') = Normal text
       /\ getItem (localStorage w') key = Normal (Some (to_text text)).
Proof.
  intros Hw Hfv Hu Hset.
  rewrite (setValue_window _ _ _ _ _ _ Hw), Hfv, (validator_accepts vf fv w Hu), Hu
    in Hset.
  rewrite commit_eq in Hset. simpl in Hset.
  destruct (storage_access (localStorage w)); [|discriminate].
  destruct (JSON_stringify (validated vf fv)) as [text|e] eqn:Hj; [|discriminate].
  destruct (setItem (localStorage w) key (to_text text)) as [s'|e] eqn:Hs;
    [|discriminate].
  injection Hset as <-. simpl. split; [reflexivity|].
  exists text. split; [exact Hj|]. exact (setItem_stored _ _ _ _ Hs).
Qed.

Lemma accepted_update_syncs_state_and_entry_witness :
  let w' := fst (setValue "counter" VNull (Some count_schema)
                   (Literal counted_with_extra) None
                   (mount true (mkStorage ∅ (Some 40)))) in
  state w' = validated (Some count_schema) counted_with_extra
  /\ exists text,
       JSON_stringify (state w') = Normal text
       /\ getItem (localStorage w') "counter" = Normal (Some (to_text text)).
Proof.
  cbv zeta.
  apply (accepted_update_syncs_state_and_entry "counter" VNull (Some count_schema)
           (Literal counted_with_extra) None (mount true (mkStorage ∅ (Some 40)))
           (fst (setValue "counter" VNull (Some count_schema)
                   (Literal counted_with_extra) None (mount true (mkStorage ∅ (Some 40)))))
           counted_with_extra).
  - reflexivity.
  - reflexivity.
  - reflexivity.
  - vm_compute. reflexivity.
Defined.
